(** * Top searchers by PNL

    Model of [notebook/.ipynb_checkpoints/top-searcher-by-type-checkpoint.py]:
    the script loads two parquet files, drops the bundle rows whose
    [mev_type] is ["SearcherTx"] or ["Unknown"], sums [profit_usd] per
    [mev_contract], sorts the sums in descending order and prints the
    first 30 rows.

    The script is written against the polars DataFrame API.  The calls it
    makes, [DataFrame.groupby] and [sort(..., reverse=True)], are those of
    the releases in which [reverse] had not yet been renamed [descending]
    (the 0.16 series and before), and module [Polars] below gives the table
    operations the meaning they have in those releases: [is_in] looks a
    null up like any value, a group-wise [sum] over no non-null value is
    null, a descending sort puts nulls last, and [groupby] without
    [maintain_order] fixes no order of the groups.

    Module [Polars] computes on exact rationals, which is all that the
    properties of keys, nulls, rows and files need.  What depends on the
    arithmetic of the stored column (how sums round, where infinities and
    NaN are sorted) is stated on module [Float64], the aggregator on an
    IEEE-754 binary64 column. *)

From Stdlib Require Import QArith Qcanon Floats.SpecFloat.
From stdpp Require Import numbers sorting strings gmap list.

(** ** Cells and tables *)

(** A cell is a value or null. *)
Definition Utf8 : Type := option string.
Definition Number : Type := option Qc.
Definition Boolean : Type := option bool.

(** A table is the sequence of its rows. *)
Abbreviation DataFrame Row := (list Row) (only parsing).

(** An expression yields one cell per row. *)
Definition Expr (Row A : Type) : Type := Row → A.

(** The bundle table: the three columns the script names, and whatever
    else the file carries. *)
Module Bundle.
Record row {Other : Type} : Type := Row {
  mev_type : Utf8;
  mev_contract : Utf8;
  profit_usd : Number;
  other_columns : Other
}.
Global Arguments row : clear implicits.
Global Arguments Row {Other} _ _ _ _.
End Bundle.

(** The result of the aggregation: one row per [mev_contract]. *)
Module TopSearchers.
Record row : Type := Row {
  mev_contract : Utf8;
  total_profit_usd : Number
}.
End TopSearchers.

(** What [get_top_searchers_by_pnl] reads from its argument: any table
    with a [mev_contract] and a [profit_usd] column will do. *)
Class SearcherColumns (R : Type) : Type := {
  col_mev_contract : Expr R Utf8;
  col_profit_usd : Expr R Number
}.

Global Instance bundle_columns {Other} : SearcherColumns (Bundle.row Other) := {|
  col_mev_contract := Bundle.mev_contract;
  col_profit_usd := Bundle.profit_usd
|}.

(** The aggregated table read back as an input, [total_profit_usd]
    standing for [profit_usd]. *)
Definition total_as_profit : SearcherColumns TopSearchers.row := {|
  col_mev_contract := TopSearchers.mev_contract;
  col_profit_usd := TopSearchers.total_profit_usd
|}.

(** ** The table operations the script calls *)

Module Polars.

(** [expr.is_in(other)]: the values of [other] are put in a set and every
    cell, null included, is looked up in it; the result has no nulls. *)
Definition is_in {R} (e : Expr R Utf8) (other : list Utf8) : Expr R Boolean :=
  λ r, Some (bool_decide (e r ∈ other)).

(** [~expr]: negation, null where the operand is null. *)
Definition not_ {R} (e : Expr R Boolean) : Expr R Boolean :=
  λ r, negb <$> e r.

(** [df.filter(mask)]: the rows whose mask is true, in their order. *)
Definition filter {R} (mask : Expr R Boolean) (df : DataFrame R) : DataFrame R :=
  base.filter (λ r, mask r = Some true) df.

(** The distinct values of a column, by first appearance; null is a value
    like any other. *)
Fixpoint unique (keys : list Utf8) : list Utf8 :=
  match keys with
  | [] => []
  | k :: keys' => k :: base.filter (λ k', k' ≠ k) (unique keys')
  end.

(** The non-null values of a numeric column. *)
Definition drop_nulls (vals : list Number) : list Qc := omap id vals.

(** [expr.sum()] over one group: nulls are skipped; a group without any
    non-null value sums to null. *)
Definition sum (vals : list Number) : Number :=
  match drop_nulls vals with
  | [] => None
  | xs => Some (foldr Qcplus 0%Qc xs)
  end.

(** The rows of one group. *)
Definition group {R} `{SearcherColumns R} (df : DataFrame R) (k : Utf8) : DataFrame R :=
  base.filter (λ r, col_mev_contract r = k) df.

(** [groupby("mev_contract").agg([col("profit_usd").sum().alias("total_profit_usd")])]
    with the groups listed by first appearance. *)
Definition group_sums {R} `{SearcherColumns R} (df : DataFrame R)
  : DataFrame TopSearchers.row :=
  (λ k, TopSearchers.Row k (sum (col_profit_usd <$> group df k)))
    <$> unique (col_mev_contract <$> df).

(** [groupby] is called without [maintain_order]: the groups come out in
    an order the library does not fix. *)
Definition groupby_agg {R} `{SearcherColumns R} (df : DataFrame R)
    (groups : DataFrame TopSearchers.row) : Prop :=
  groups ≡ₚ group_sums df.

(** The order of [sort(..., reverse=True)] on a numeric column: larger
    numbers first, nulls after every number. *)
Definition ge_cell (a b : Number) : Prop :=
  match a, b with
  | _, None => True
  | None, Some _ => False
  | Some x, Some y => (y ≤ x)%Qc
  end.

Global Instance ge_cell_dec : RelDecision ge_cell.
Proof.
  intros [x|] [y|]; simpl; try apply _.
Defined.

Definition by_total_desc (a b : TopSearchers.row) : Prop :=
  ge_cell (TopSearchers.total_profit_usd a) (TopSearchers.total_profit_usd b).

Global Instance by_total_desc_dec : RelDecision by_total_desc.
Proof. intros a b. unfold by_total_desc. apply _. Defined.

(** [df.sort("total_profit_usd", reverse=True)]: a merge sort by the order
    above; it looks at no other column. *)
Definition sort_reverse (df : DataFrame TopSearchers.row) : DataFrame TopSearchers.row :=
  merge_sort by_total_desc df.

(** [df.head(n)]. *)
Definition head {R} (n : nat) (df : DataFrame R) : DataFrame R := take n df.

End Polars.

(** ** The script *)

(** A path names a file, which holds a table or does not. *)
Inductive File (T : Type) : Type :=
  | Parquet (table : T)
  | NoSuchFile
  | NotParquet.
Global Arguments Parquet {T} _.
Global Arguments NoSuchFile {T}.
Global Arguments NotParquet {T}.

Inductive Error : Type :=
  | FileAccessError
  | ParseError.

Definition Result (A : Type) : Type := Error + A.

Definition read_parquet {T} (f : File T) : Result T :=
  match f with
  | Parquet t => inr t
  | NoSuchFile => inl FileAccessError
  | NotParquet => inl ParseError
  end.

Definition bind {A B} (m : Result A) (k : A → Result B) : Result B :=
  match m with
  | inl e => inl e
  | inr a => k a
  end.

Definition read_data {Blocks Bundles} (path_to_blocks : File Blocks)
    (path_to_bundles : File Bundles) : Result (Blocks * Bundles) :=
  bind (read_parquet path_to_blocks) (λ blocks_df,
  bind (read_parquet path_to_bundles) (λ bundles_df,
  inr (blocks_df, bundles_df))).

Definition excluded_mev_types : list Utf8 := [Some "SearcherTx"; Some "Unknown"].

Definition filter_mev_types {Other} (bundles_df : DataFrame (Bundle.row Other))
  : DataFrame (Bundle.row Other) :=
  Polars.filter (Polars.not_ (Polars.is_in Bundle.mev_type excluded_mev_types)) bundles_df.

(** [top_searchers] is a table the call can return. *)
Definition get_top_searchers_by_pnl {R} `{SearcherColumns R} (bundles_df : DataFrame R)
    (top_searchers : DataFrame TopSearchers.row) : Prop :=
  ∃ groups, Polars.groupby_agg bundles_df groups ∧
    top_searchers = Polars.head 30 (Polars.sort_reverse groups).

(** The return value when the groups come out by first appearance. *)
Definition top_searchers_first_seen {R} `{SearcherColumns R} (bundles_df : DataFrame R)
  : DataFrame TopSearchers.row :=
  Polars.head 30 (Polars.sort_reverse (Polars.group_sums bundles_df)).

(** What a run has computed when it reaches its [print] calls: the
    filtered table, and the table it prints. *)
Record Printed {Other : Type} : Type := Output {
  filtered_bundles_df : DataFrame (Bundle.row Other);
  top_searchers_by_pnl : DataFrame TopSearchers.row
}.
Global Arguments Printed : clear implicits.

(** [main path_to_blocks path_to_bundles outcome]: a run of the script on
    the two files can end in [outcome], an uncaught error or the printed
    table. *)
Definition main {Blocks Other} (path_to_blocks : File Blocks)
    (path_to_bundles : File (DataFrame (Bundle.row Other)))
    (outcome : Result (Printed Other)) : Prop :=
  match read_data path_to_blocks path_to_bundles with
  | inl e => outcome = inl e
  | inr (blocks_df, bundles_df) =>
      ∃ top, get_top_searchers_by_pnl (filter_mev_types bundles_df) top ∧
        outcome = inr (Output Other (filter_mev_types bundles_df) top)
  end.

(** A non-null amount, from a fraction. *)
Definition usd (q : Q) : Number := Some (Q2Qc q).

(** ** Notions the properties are stated with *)

(** The mask of [filter_mev_types], row by row. *)
Definition kept {Other} (r : Bundle.row Other) : Prop :=
  Polars.not_ (Polars.is_in Bundle.mev_type excluded_mev_types) r = Some true.

(** The sum of a numeric column, nulls counting for nothing. *)
Definition column_total (col : list Number) : Qc :=
  foldr Qcplus 0%Qc (Polars.drop_nulls col).

(** ** Concrete tables *)

Definition example_bundles : DataFrame (Bundle.row ()) :=
  [ Bundle.Row (Some "Backrun") (Some "A") (usd 10) ();
    Bundle.Row (Some "Backrun") (Some "A") (usd 5) ();
    Bundle.Row (Some "Liquidation") (Some "B") (usd 100) ();
    Bundle.Row (Some "SearcherTx") (Some "C") (usd 1000) ();
    Bundle.Row (Some "Unknown") (Some "D") (usd 500) () ].

Definition row_A : TopSearchers.row := TopSearchers.Row (Some "A") (usd 15).
Definition row_B : TopSearchers.row := TopSearchers.Row (Some "B") (usd 100).

(** Two contracts with the same profit. *)
Definition tied_bundles : DataFrame (Bundle.row ()) :=
  [ Bundle.Row (Some "Backrun") (Some "A") (usd 1) ();
    Bundle.Row (Some "Backrun") (Some "B") (usd 1) () ].

Definition tied_A : TopSearchers.row := TopSearchers.Row (Some "A") (usd 1).
Definition tied_B : TopSearchers.row := TopSearchers.Row (Some "B") (usd 1).

(** One contract, its only profit missing. *)
Definition null_profit_bundles : DataFrame (Bundle.row ()) :=
  [ Bundle.Row (Some "Backrun") (Some "A") None () ].

Definition null_total : TopSearchers.row := TopSearchers.Row (Some "A") None.

(** [n] contracts with one bundle each, contract [i] earning [i]. *)
Definition one_bundle_each (n : nat) : DataFrame (Bundle.row ()) :=
  (λ i, Bundle.Row (Some "Backrun") (Some (String (Ascii.ascii_of_nat (65 + i)) ""))
          (usd (inject_Z (Z.of_nat i))) ())
    <$> seq 0 n.

(** ** The aggregator on a Float64 column *)

(** [profit_usd] is stored as IEEE-754 binary64.  What the aggregator does
    with a key column does not depend on that; what it computes and how it
    orders totals does: sums round, and a column can hold infinities and
    NaN.  Module [Float64] is [get_top_searchers_by_pnl] on such a column. *)
Module Float64.

Definition prec : Z := 53.
Definition emax : Z := 1024.

Definition Number : Type := option spec_float.

Global Instance spec_float_eq_dec : EqDecision spec_float.
Proof. solve_decision. Defined.

(** [a + b], rounded to nearest, ties to even. *)
Definition add (a b : spec_float) : spec_float := SFadd prec emax a b.

(** The binary64 value nearest to an integer. *)
Definition of_Z (z : Z) : spec_float := binary_normalize prec emax z 0 false.

Definition number (z : Z) : Number := Some (of_Z z).
Definition nan : Number := Some S754_nan.

(** A table with the two columns the aggregator reads. *)
Module Bundle.
Record row : Type := Row {
  mev_contract : Utf8;
  profit_usd : Number
}.
End Bundle.

Module TopSearchers.
Record row : Type := Row {
  mev_contract : Utf8;
  total_profit_usd : Number
}.
End TopSearchers.

Definition drop_nulls (vals : list Number) : list spec_float := omap id vals.

(** The Float64 sum of a column, taken from [+0.0] cell by cell in row
    order, nulls skipped. *)
Definition column_sum (vals : list Number) : spec_float :=
  foldl add (S754_zero false) (drop_nulls vals).

(** [expr.sum()] over one group: a group of one row yields that row's cell
    as it is; otherwise the non-null cells are folded in row order, and a
    group without any sums to null. *)
Definition sum (vals : list Number) : Number :=
  match vals with
  | [v] => v
  | _ => match drop_nulls vals with
         | [] => None
         | _ => Some (column_sum vals)
         end
  end.

Definition group (df : DataFrame Bundle.row) (k : Utf8) : DataFrame Bundle.row :=
  base.filter (λ r, Bundle.mev_contract r = k) df.

Definition group_sums (df : DataFrame Bundle.row) : DataFrame TopSearchers.row :=
  (λ k, TopSearchers.Row k (sum (Bundle.profit_usd <$> group df k)))
    <$> Polars.unique (Bundle.mev_contract <$> df).

Definition groupby_agg (df : DataFrame Bundle.row)
    (groups : DataFrame TopSearchers.row) : Prop :=
  groups ≡ₚ group_sums df.

(** The comparison of the descending sort on floats: NaN before every
    number, numbers by IEEE [>=] (so [+0.0] and [-0.0] tie). *)
Definition ge (x y : spec_float) : Prop :=
  match x, y with
  | S754_nan, _ => True
  | _, S754_nan => False
  | _, _ => SFleb y x = true
  end.

(** On cells: nulls after everything else. *)
Definition ge_cell (a b : Number) : Prop :=
  match a, b with
  | _, None => True
  | None, Some _ => False
  | Some x, Some y => ge x y
  end.

Global Instance ge_dec : RelDecision ge.
Proof. intros x y. unfold ge. destruct x, y; apply _. Defined.

Global Instance ge_cell_dec : RelDecision ge_cell.
Proof. intros [x|] [y|]; simpl; apply _. Defined.

Definition by_total_desc (a b : TopSearchers.row) : Prop :=
  ge_cell (TopSearchers.total_profit_usd a) (TopSearchers.total_profit_usd b).

Global Instance by_total_desc_dec : RelDecision by_total_desc.
Proof. intros a b. unfold by_total_desc. apply _. Defined.

Definition sort_reverse (df : DataFrame TopSearchers.row) : DataFrame TopSearchers.row :=
  merge_sort by_total_desc df.

(** [top_searchers] is a table the call can return. *)
Definition get_top_searchers_by_pnl (bundles_df : DataFrame Bundle.row)
    (top_searchers : DataFrame TopSearchers.row) : Prop :=
  ∃ groups, groupby_agg bundles_df groups ∧
    top_searchers = Polars.head 30 (sort_reverse groups).

Definition top_searchers_first_seen (bundles_df : DataFrame Bundle.row)
  : DataFrame TopSearchers.row :=
  Polars.head 30 (sort_reverse (group_sums bundles_df)).

(** A position on a line for every float, used to reason about [ge]: sign
    class, then exponent, then mantissa, NaN at the far end. *)
Definition key (x : spec_float) : Z * Z * Z :=
  match x with
  | S754_nan => (3, 0, 0)
  | S754_infinity true => (-2, 0, 0)
  | S754_finite true m e => (-1, - e, Z.neg m)
  | S754_zero _ => (0, 0, 0)
  | S754_finite false m e => (1, e, Z.pos m)
  | S754_infinity false => (2, 0, 0)
  end%Z.

Definition key_le (k1 k2 : Z * Z * Z) : Prop :=
  let '(a1, b1, c1) := k1 in
  let '(a2, b2, c2) := k2 in
  (a1 < a2 ∨ (a1 = a2 ∧ (b1 < b2 ∨ (b1 = b2 ∧ c1 ≤ c2))))%Z.


(** A NaN profit. *)
Definition nan_bundles : DataFrame Bundle.row :=
  [ Bundle.Row (Some "A") nan;
    Bundle.Row (Some "B") (number 7);
    Bundle.Row (Some "C") (number 5) ].

(** [n] contracts with one bundle each, contract [i] earning [i]. *)
Definition one_bundle_each (n : nat) : DataFrame Bundle.row :=
  (λ i, Bundle.Row (Some (String (Ascii.ascii_of_nat (65 + i)) "")) (number (Z.of_nat i)))
    <$> seq 0 n.

End Float64.

(** * Properties *)

(** The example of the specification: C and D are filtered out, A sums to
    15 and comes after B. *)
Example spec_example :
  filter_mev_types example_bundles = take 3 example_bundles ∧
  top_searchers_first_seen (filter_mev_types example_bundles) = [row_B; row_A].
Proof. split; vm_compute; reflexivity. Qed.

(** With 31 contracts the result stops at 30 rows, the smallest profit
    left out. *)
Example truncation_example :
  length (top_searchers_first_seen (one_bundle_each 31)) = 30 ∧
  TopSearchers.total_profit_usd <$> last (top_searchers_first_seen (one_bundle_each 31))
  = Some (usd 1).
Proof. split; vm_compute; reflexivity. Qed.

(** Fractions add up exactly. *)
Example fractional_sum :
  Polars.sum [usd (1 # 2); None; usd (1 # 3); usd (-1)] = usd (-1 # 6).
Proof. vm_compute. reflexivity. Qed.

(** ** The filter *)

Section filter_facts.
Context {Other : Type}.
Implicit Types (r : Bundle.row Other) (df : DataFrame (Bundle.row Other)).

Lemma kept_iff r :
  kept r ↔ Bundle.mev_type r ≠ Some "SearcherTx" ∧ Bundle.mev_type r ≠ Some "Unknown".
Proof.
  unfold kept, Polars.not_, Polars.is_in, excluded_mev_types. simpl.
  case_bool_decide as Hin; simpl.
  - split; [discriminate|]. intros [H1 H2].
    apply elem_of_cons in Hin as [?|Hin]; [done|].
    apply elem_of_cons in Hin as [?|Hin]; [done|].
    by apply elem_of_nil in Hin.
  - split; [|done]. intros _.
    split; intros E; apply Hin; rewrite E; repeat constructor.
Qed.

Lemma elem_of_filter_mev_types r df :
  r ∈ filter_mev_types df ↔ kept r ∧ r ∈ df.
Proof. unfold filter_mev_types, Polars.filter. apply list_elem_of_filter. Qed.

(** C1: a row of the bundle table whose [mev_type] is null is a row of the
    filtered table. *)
Theorem filter_keeps_null_mev_type df r :
  r ∈ df → Bundle.mev_type r = None → r ∈ filter_mev_types df.
Proof.
  intros Hr Hnull. apply elem_of_filter_mev_types. split; [|done].
  apply kept_iff. rewrite Hnull. split; discriminate.
Qed.

(** C2: the filtered table is made of rows of the bundle table, in their
    order and no more often than they occur there, and none of them has
    [mev_type] ["SearcherTx"] or ["Unknown"]. *)
Theorem filter_subset_and_excludes df :
  (∀ r, r ∈ filter_mev_types df → r ∈ df) ∧
  filter_mev_types df `sublist_of` df ∧
  (∀ r, r ∈ filter_mev_types df →
     Bundle.mev_type r ≠ Some "SearcherTx" ∧ Bundle.mev_type r ≠ Some "Unknown").
Proof.
  split; [|split].
  - intros r Hr. by apply elem_of_filter_mev_types in Hr as [_ ?].
  - apply sublist_filter.
  - intros r Hr. apply elem_of_filter_mev_types in Hr as [Hk _].
    by apply kept_iff.
Qed.

(** C10: filtering a filtered table changes nothing. *)
Theorem filter_idempotent df :
  filter_mev_types (filter_mev_types df) = filter_mev_types df.
Proof.
  unfold filter_mev_types, Polars.filter.
  induction df as [|r df IH]; [done|].
  rewrite filter_cons. case_decide as Hr.
  - rewrite filter_cons_True by done. f_equal. exact IH.
  - exact IH.
Qed.
End filter_facts.

(** A table with a null [mev_type]: the second row stays. *)
Lemma filter_keeps_null_mev_type_witness :
  Bundle.Row None (Some "A") (usd 7) () ∈
    filter_mev_types
      [ Bundle.Row (Some "Unknown") (Some "B") (usd 1) ();
        Bundle.Row None (Some "A") (usd 7) () ].
Proof.
  apply (filter_keeps_null_mev_type
           [ Bundle.Row (Some "Unknown") (Some "B") (usd 1) ();
             Bundle.Row None (Some "A") (usd 7) () ]).
  - apply list_elem_of_In. simpl. right. left. reflexivity.
  - reflexivity.
Defined.

(** ** Distinct keys *)

Lemma elem_of_unique (ks : list Utf8) (k : Utf8) : k ∈ Polars.unique ks ↔ k ∈ ks.
Proof.
  induction ks as [|k0 ks IH]; simpl; [done|].
  rewrite !elem_of_cons, list_elem_of_filter, IH. split.
  - intros [->|[_ Hin]]; [by left|by right].
  - intros [->|Hin]; [by left|].
    destruct (decide (k = k0)) as [->|Hne]; [by left|by right].
Qed.

Lemma NoDup_unique (ks : list Utf8) : NoDup (Polars.unique ks).
Proof.
  induction ks as [|k0 ks IH]; simpl; constructor.
  - rewrite list_elem_of_filter. by intros [Hne _].
  - by apply NoDup_filter.
Qed.

Lemma filter_ne_not_elem_of (ks : list Utf8) (k0 : Utf8) :
  k0 ∉ ks → filter (λ k', k' ≠ k0) ks = ks.
Proof.
  induction ks as [|k ks IH]; [done|]. intros [Hne Hk0]%not_elem_of_cons.
  rewrite filter_cons_True by congruence. f_equal. by apply IH.
Qed.

Lemma unique_NoDup (ks : list Utf8) : NoDup ks → Polars.unique ks = ks.
Proof.
  induction 1 as [|k0 ks Hk0 _ IH]; simpl; [done|].
  by rewrite IH, filter_ne_not_elem_of.
Qed.

(** The length of [unique] is the number of distinct values. *)
Lemma length_unique (ks : list Utf8) :
  length (Polars.unique ks) = size (list_to_set ks : gset Utf8).
Proof.
  rewrite <-(size_list_to_set (C:=gset Utf8)) by apply NoDup_unique.
  f_equal. apply set_eq. intros k.
  by rewrite !elem_of_list_to_set, elem_of_unique.
Qed.

(** ** The order of the descending sort *)

(** [ge_cell] is [≥] on numbers, with null below all of them. *)
Lemma ge_cell_spec (a b : Number) :
  Polars.ge_cell a b ↔ b = None ∨ ∃ x y, a = Some x ∧ b = Some y ∧ (y ≤ x)%Qc.
Proof.
  split.
  - destruct a as [x|], b as [y|]; simpl; intros Hge; eauto 10. done.
  - intros [->|(x & y & -> & -> & Hle)]; [by destruct a|done].
Qed.

Global Instance ge_cell_total : Total Polars.ge_cell.
Proof.
  intros [x|] [y|]; simpl; auto.
  destruct (total Qcle x y); auto.
Qed.

Global Instance ge_cell_trans : Transitive Polars.ge_cell.
Proof.
  intros [x|] [y|] [z|]; simpl; try done.
  intros ??. by etrans.
Qed.

Lemma ge_cell_antisym (a b : Number) : Polars.ge_cell a b → Polars.ge_cell b a → a = b.
Proof.
  destruct a as [x|], b as [y|]; simpl; try done.
  intros ??. f_equal. by apply (anti_symm Qcle).
Qed.

Global Instance by_total_desc_total : Total Polars.by_total_desc.
Proof. intros a b. apply (total Polars.ge_cell). Qed.

Global Instance by_total_desc_trans : Transitive Polars.by_total_desc.
Proof. intros a b c. apply (transitivity (R:=Polars.ge_cell)). Qed.

Lemma sort_reverse_Permutation (df : DataFrame TopSearchers.row) :
  Polars.sort_reverse df ≡ₚ df.
Proof. apply merge_sort_Permutation. Qed.

Lemma sort_reverse_Sorted (df : DataFrame TopSearchers.row) :
  Sorted Polars.by_total_desc (Polars.sort_reverse df).
Proof. apply (Sorted_merge_sort _). Qed.

Lemma Sorted_take {A} (R : relation A) (n : nat) (l : list A) :
  Sorted R l → Sorted R (take n l).
Proof.
  intros Hl. revert n. induction Hl as [|x l Hl IH Hhd]; intros [|n]; simpl;
    try constructor; auto.
  destruct Hhd; destruct n; simpl; constructor; done.
Qed.

Lemma Sorted_adjacent {A} (R : relation A) (l : list A) (i : nat) (a b : A) :
  Sorted R l → l !! i = Some a → l !! S i = Some b → R a b.
Proof.
  intros Hl. revert i. induction Hl as [|x l Hl IH Hhd]; intros i Ha Hb; [done|].
  destruct i as [|i]; simpl in *.
  - simplify_eq. destruct Hhd; simplify_eq/=. done.
  - eauto.
Qed.

(** ** The aggregator *)

Section aggregator_facts.
Context {R : Type} `{SearcherColumns R}.
Implicit Types (df : DataFrame R) (out groups : DataFrame TopSearchers.row).

(** The call returns: the groups can come out by first appearance. *)
Lemma get_top_searchers_by_pnl_first_seen df :
  get_top_searchers_by_pnl df (top_searchers_first_seen df).
Proof. exists (Polars.group_sums df). split; [|done]. by unfold Polars.groupby_agg. Qed.

Lemma group_sums_keys df :
  TopSearchers.mev_contract <$> Polars.group_sums df
  = Polars.unique (col_mev_contract <$> df).
Proof.
  unfold Polars.group_sums. rewrite <-list_fmap_compose.
  induction (Polars.unique _) as [|k ks IH]; [done|].
  rewrite fmap_cons. f_equal. exact IH.
Qed.

Lemma length_group_sums df :
  length (Polars.group_sums df)
  = size (list_to_set (col_mev_contract <$> df) : gset Utf8).
Proof. unfold Polars.group_sums. by rewrite length_fmap, length_unique. Qed.

Lemma get_top_length_le out df : get_top_searchers_by_pnl df out → length out ≤ 30.
Proof.
  intros (groups & _ & ->). unfold Polars.head. rewrite length_take. lia.
Qed.

(** Without truncation the result is the groups, reordered. *)
Lemma get_top_Permutation df out :
  length (Polars.group_sums df) ≤ 30 →
  get_top_searchers_by_pnl df out → out ≡ₚ Polars.group_sums df.
Proof.
  intros Hlen (groups & Hg & ->). unfold Polars.groupby_agg in Hg.
  unfold Polars.head. rewrite take_ge.
  - by rewrite sort_reverse_Permutation.
  - by rewrite sort_reverse_Permutation, Hg.
Qed.

(** Every row of the result is one of the groups. *)
Lemma get_top_elem_of df out row :
  get_top_searchers_by_pnl df out → row ∈ out → row ∈ Polars.group_sums df.
Proof.
  intros (groups & Hg & ->) Hrow. unfold Polars.groupby_agg in Hg.
  rewrite <-Hg, <-(sort_reverse_Permutation groups).
  by apply (subseteq_take 30).
Qed.

Lemma get_top_Sorted df out :
  get_top_searchers_by_pnl df out → Sorted Polars.by_total_desc out.
Proof. intros (groups & _ & ->). apply Sorted_take, sort_reverse_Sorted. Qed.

(** C3: the result has as many rows as there are distinct [mev_contract]
    values, null counted as one of them, and no more than 30. *)
Theorem top_searchers_row_count df out :
  get_top_searchers_by_pnl df out →
  length out = min 30 (size (list_to_set (col_mev_contract <$> df) : gset Utf8)).
Proof.
  intros (groups & Hg & ->). unfold Polars.groupby_agg in Hg.
  unfold Polars.head. rewrite length_take, sort_reverse_Permutation, Hg.
  by rewrite length_group_sums.
Qed.

End aggregator_facts.

(** ** The total of one group *)

Lemma sum_Some (vals : list Number) (q : Qc) :
  Some q ∈ vals → Polars.sum vals = Some (column_total vals).
Proof.
  intros Hq. unfold Polars.sum, column_total.
  assert (q ∈ Polars.drop_nulls vals) as Hin.
  { apply list_elem_of_omap. by exists (Some q). }
  destruct (Polars.drop_nulls vals); [|done]. by apply elem_of_nil in Hin.
Qed.

Lemma sum_None (vals : list Number) :
  (∀ v, v ∈ vals → v = None) → Polars.sum vals = None.
Proof.
  intros Hnull. unfold Polars.sum.
  replace (Polars.drop_nulls vals) with (@nil Qc); [done|].
  induction vals as [|v vals IH]; [done|].
  rewrite (Hnull v) by left. apply IH. intros v' Hv'. apply Hnull. by right.
Qed.

Section total_facts.
Context {R : Type} `{SearcherColumns R}.
Implicit Types (df : DataFrame R) (out : DataFrame TopSearchers.row).

Lemma elem_of_group_sums df row :
  row ∈ Polars.group_sums df ↔
  TopSearchers.mev_contract row ∈ (col_mev_contract <$> df) ∧
  TopSearchers.total_profit_usd row
  = Polars.sum (col_profit_usd <$> Polars.group df (TopSearchers.mev_contract row)).
Proof.
  unfold Polars.group_sums. rewrite list_elem_of_fmap. split.
  - intros (k & -> & Hk). simpl. split; [|done].
    by apply (proj1 (elem_of_unique _ _)).
  - intros [Hk Hsum]. exists (TopSearchers.mev_contract row). split.
    + destruct row as [k t]. simpl in *. by rewrite Hsum.
    + by apply elem_of_unique.
Qed.

(** C7, as the code has it: the total of a result row is the sum of the
    non-null [profit_usd] values of the rows with its [mev_contract] when
    there is such a value, and null when there is none. *)
Theorem top_searchers_total df out row :
  get_top_searchers_by_pnl df out → row ∈ out →
  let vals := col_profit_usd <$> Polars.group df (TopSearchers.mev_contract row) in
  TopSearchers.mev_contract row ∈ (col_mev_contract <$> df) ∧
  ((∃ q, Some q ∈ vals) →
     TopSearchers.total_profit_usd row = Some (column_total vals)) ∧
  ((∀ v, v ∈ vals → v = None) → TopSearchers.total_profit_usd row = None).
Proof.
  intros Hout Hrow vals.
  apply (get_top_elem_of df out row Hout), elem_of_group_sums in Hrow as [Hk Hsum].
  split; [done|]. rewrite Hsum. split.
  - intros [q Hq]. by apply (sum_Some _ q).
  - apply sum_None.
Qed.

(** C8: on a table without rows the call returns, and what it returns is
    the table without rows. *)
Theorem top_searchers_empty out :
  get_top_searchers_by_pnl (R:=R) [] out ↔ out = [].
Proof.
  split.
  - intros (groups & Hg & ->). unfold Polars.groupby_agg in Hg.
    change (groups ≡ₚ []) in Hg. apply Permutation_nil_r in Hg. by subst groups.
  - intros ->. apply (get_top_searchers_by_pnl_first_seen (R:=R) []).
Qed.
End total_facts.

(** ** Aggregating the result again *)

Lemma NoDup_fmap_eq {A B} (f : A → B) (l : list A) (x y : A) :
  NoDup (f <$> l) → x ∈ l → y ∈ l → f x = f y → x = y.
Proof.
  induction l as [|a l IH]; [by intros _ ?%elem_of_nil|].
  rewrite fmap_cons, NoDup_cons. intros [Ha Hl] Hx Hy Hf.
  apply elem_of_cons in Hx as [->|Hx]; apply elem_of_cons in Hy as [->|Hy].
  - done.
  - destruct Ha. rewrite Hf. by apply list_elem_of_fmap_2.
  - destruct Ha. rewrite <-Hf. by apply list_elem_of_fmap_2.
  - by apply IH.
Qed.

Section reaggregation.
Implicit Types (out : DataFrame TopSearchers.row).

(** A row with one value per group is its own group sum. *)
Lemma sum_singleton (t : Number) : Polars.sum [t] = t.
Proof.
  destruct t as [q|]; [|done]. unfold Polars.sum. simpl. by rewrite Qcplus_0_r.
Qed.

Lemma group_singleton out (r : TopSearchers.row) :
  NoDup (TopSearchers.mev_contract <$> out) → r ∈ out →
  Polars.group (H:=total_as_profit) out (TopSearchers.mev_contract r) = [r].
Proof.
  unfold Polars.group. simpl.
  induction out as [|a out IH]; [by intros _ ?%elem_of_nil|].
  rewrite fmap_cons, NoDup_cons. intros [Ha Hout] Hr.
  assert (∀ r', r' ∈ out → TopSearchers.mev_contract r' ≠ TopSearchers.mev_contract a)
    as Hother.
  { intros r' Hr' Heq. apply Ha. rewrite <-Heq. by apply list_elem_of_fmap_2. }
  apply elem_of_cons in Hr as [->|Hr].
  - rewrite filter_cons_True by done. f_equal.
    clear IH Ha Hout. induction out as [|b out IH]; [done|].
    rewrite filter_cons_False by (apply Hother; left).
    apply IH. intros r' Hr'. apply Hother. by right.
  - rewrite filter_cons_False; [by apply IH|].
    intros Heq. by apply (Hother r).
Qed.

Lemma group_sums_unique_keys out :
  NoDup (TopSearchers.mev_contract <$> out) →
  Polars.group_sums (H:=total_as_profit) out = out.
Proof.
  intros Hnd. unfold Polars.group_sums. simpl.
  rewrite unique_NoDup by done. rewrite <-list_fmap_compose.
  etrans; [|apply list_fmap_id]. apply list_fmap_ext.
  intros i r Hr. simpl.
  rewrite group_singleton by eauto using list_elem_of_lookup_2.
  rewrite fmap_cons, fmap_nil. simpl. rewrite sum_singleton. by destruct r.
Qed.

Context {R : Type} `{SearcherColumns R}.

Lemma get_top_NoDup_keys (df : DataFrame R) out :
  get_top_searchers_by_pnl df out → NoDup (TopSearchers.mev_contract <$> out).
Proof.
  intros (groups & Hg & ->). unfold Polars.groupby_agg in Hg.
  apply (sublist_NoDup _ (TopSearchers.mev_contract <$> Polars.sort_reverse groups)).
  - rewrite sort_reverse_Permutation, Hg, group_sums_keys. apply NoDup_unique.
  - apply fmap_sublist, sublist_take.
Qed.

(** C5, as the code has it: aggregating a result again gives the same
    rows, each once and sorted as before; when no two rows have the same
    total the order is the same too. *)
Theorem top_searchers_reaggregation (df : DataFrame R) out out' :
  get_top_searchers_by_pnl df out →
  get_top_searchers_by_pnl (H:=total_as_profit) out out' →
  out' ≡ₚ out ∧
  Sorted Polars.by_total_desc out' ∧
  (NoDup (TopSearchers.total_profit_usd <$> out) → out' = out).
Proof.
  intros Hout Hout'.
  pose proof (get_top_NoDup_keys df out Hout) as Hkeys.
  assert (out' ≡ₚ out) as Hperm.
  { pose proof (get_top_Permutation (H:=total_as_profit) out out') as Hp.
    rewrite (group_sums_unique_keys out Hkeys) in Hp. apply Hp; [|done].
    by apply (get_top_length_le out df). }
  split; [done|]. split; [by apply (get_top_Sorted (H:=total_as_profit) out)|].
  intros Hnd. apply (Sorted_unique_strong Polars.by_total_desc); [| |by eapply get_top_Sorted|done].
  - intros x1 x2 Hx1 Hx2 H12 H21. rewrite Hperm in Hx1.
    apply (NoDup_fmap_eq TopSearchers.total_profit_usd out); [done..|].
    by apply ge_cell_antisym.
  - by apply (get_top_Sorted (H:=total_as_profit) out).
Qed.
End reaggregation.

(** ** The script as a whole *)

(** C9, as the code has it: when both block files load, two runs on the
    same bundle file have the same outcomes, whatever the block tables
    hold: the same error, or the same filtered table with the same
    top-searchers tables. *)
Theorem block_table_is_dead_data {Blocks1 Blocks2 Other}
    (blocks1 : File Blocks1) (blocks2 : File Blocks2)
    (blocks_df1 : Blocks1) (blocks_df2 : Blocks2)
    (bundles : File (DataFrame (Bundle.row Other)))
    (outcome : Result (Printed Other)) :
  read_parquet blocks1 = inr blocks_df1 →
  read_parquet blocks2 = inr blocks_df2 →
  main blocks1 bundles outcome ↔ main blocks2 bundles outcome.
Proof.
  intros Hb1 Hb2. unfold main, read_data. rewrite Hb1, Hb2. simpl.
  by destruct (read_parquet bundles).
Qed.

Lemma top_searchers_row_count_witness :
  get_top_searchers_by_pnl (filter_mev_types example_bundles) [row_B; row_A] ∧
  length [row_B; row_A]
  = min 30 (size (list_to_set (col_mev_contract <$> filter_mev_types example_bundles)
                    : gset Utf8)).
Proof.
  assert (get_top_searchers_by_pnl (filter_mev_types example_bundles) [row_B; row_A])
    as Hrun.
  { exists [row_A; row_B]. split.
    - unfold Polars.groupby_agg. vm_compute. reflexivity.
    - vm_compute. reflexivity. }
  split; [exact Hrun|].
  exact (top_searchers_row_count (filter_mev_types example_bundles) [row_B; row_A] Hrun).
Defined.

Lemma top_searchers_total_witness :
  TopSearchers.total_profit_usd row_A
  = Some (column_total
            (col_profit_usd <$> Polars.group (filter_mev_types example_bundles) (Some "A"))).
Proof.
  apply (top_searchers_total (filter_mev_types example_bundles) [row_B; row_A] row_A).
  - exists [row_A; row_B]. split.
    + unfold Polars.groupby_agg. vm_compute. reflexivity.
    + vm_compute. reflexivity.
  - apply list_elem_of_In. simpl. right. left. reflexivity.
  - exists (Q2Qc 10). apply list_elem_of_In. vm_compute. left. reflexivity.
Defined.

Lemma top_searchers_reaggregation_witness :
  [tied_B; tied_A] ≡ₚ [tied_A; tied_B] ∧
  Sorted Polars.by_total_desc [tied_B; tied_A] ∧
  (NoDup (TopSearchers.total_profit_usd <$> [tied_A; tied_B]) →
   [tied_B; tied_A] = [tied_A; tied_B]).
Proof.
  apply (top_searchers_reaggregation tied_bundles [tied_A; tied_B] [tied_B; tied_A]).
  - exists [tied_A; tied_B]. split.
    + unfold Polars.groupby_agg. vm_compute. reflexivity.
    + vm_compute. reflexivity.
  - exists [tied_B; tied_A]. split.
    + unfold Polars.groupby_agg. vm_compute. apply perm_swap.
    + vm_compute. reflexivity.
Defined.

Lemma block_table_is_dead_data_witness :
  main (Parquet [1; 2; 3]) (Parquet example_bundles)
       (inr (Output () (filter_mev_types example_bundles) [row_B; row_A]))
  ↔ main (Parquet ["other"]) (Parquet example_bundles)
       (inr (Output () (filter_mev_types example_bundles) [row_B; row_A])).
Proof.
  apply (block_table_is_dead_data (Parquet [1; 2; 3]) (Parquet ["other"])
           [1; 2; 3] ["other"]); reflexivity.
Defined.

(** ** Where the claims as written fail *)

(** C5: with two tied totals the second aggregation can return the rows in
    the other order. *)
Lemma reaggregation_order_counterexample :
  ¬ (∀ (df : DataFrame (Bundle.row ())) (out out' : DataFrame TopSearchers.row),
       get_top_searchers_by_pnl df out →
       get_top_searchers_by_pnl (H:=total_as_profit) out out' →
       out' = out).
Proof.
  intros Hclaim.
  specialize (Hclaim tied_bundles [tied_A; tied_B] [tied_B; tied_A]).
  assert ([tied_B; tied_A] = [tied_A; tied_B]) as Heq; [|discriminate Heq].
  apply Hclaim.
  - exists [tied_A; tied_B]. split.
    + unfold Polars.groupby_agg. vm_compute. reflexivity.
    + vm_compute. reflexivity.
  - exists [tied_B; tied_A]. split.
    + unfold Polars.groupby_agg. vm_compute. apply perm_swap.
    + vm_compute. reflexivity.
Qed.

(** C7: a contract whose only [profit_usd] is null gets a null total, not 0. *)
Lemma all_null_total_counterexample :
  ¬ (∀ (df : DataFrame (Bundle.row ())) (out : DataFrame TopSearchers.row)
       (row : TopSearchers.row),
       get_top_searchers_by_pnl df out → row ∈ out →
       TopSearchers.total_profit_usd row
       = Some (column_total
                 (col_profit_usd <$> Polars.group df (TopSearchers.mev_contract row)))).
Proof.
  intros Hclaim.
  specialize (Hclaim null_profit_bundles [null_total] null_total).
  assert (TopSearchers.total_profit_usd null_total = Some (column_total
    (col_profit_usd <$> Polars.group null_profit_bundles (TopSearchers.mev_contract null_total))))
    as Heq; [|discriminate Heq].
  apply Hclaim.
  - exists [null_total]. split.
    + unfold Polars.groupby_agg. vm_compute. reflexivity.
    + vm_compute. reflexivity.
  - apply list_elem_of_In. left. reflexivity.
Qed.

(** C9: a block file that is not parquet ends the run before anything is
    printed. *)
Lemma unreadable_blocks_counterexample :
  ¬ (∀ (blocks1 blocks2 : File (list nat))
       (bundles : File (DataFrame (Bundle.row ())))
       (outcome : Result (Printed ())),
       main blocks1 bundles outcome ↔ main blocks2 bundles outcome).
Proof.
  intros Hclaim.
  destruct (Hclaim (Parquet []) NotParquet (Parquet [])
              (inr (Output () [] []))) as [Hrun _].
  assert (inr (Output () [] []) = (inl ParseError : Result (Printed ()))) as Heq;
    [|discriminate Heq].
  apply Hrun. exists []. split; [|reflexivity].
  exists []. split; [|reflexivity].
  unfold Polars.groupby_agg. reflexivity.
Qed.

(** * Further properties of the script *)

(** ** Loading *)

Lemma read_data_inr {Blocks Bundles} (blocks : File Blocks) (bundles : File Bundles)
    (blocks_df : Blocks) (bundles_df : Bundles) :
  read_data blocks bundles = inr (blocks_df, bundles_df) ↔
  blocks = Parquet blocks_df ∧ bundles = Parquet bundles_df.
Proof.
  unfold read_data. destruct blocks, bundles; simpl; split; try discriminate.
  - by intros [= -> ->].
  - by intros [[= ->] [= ->]].
  - intros [_ ?]; discriminate.
  - intros [_ ?]; discriminate.
  - intros [? _]; discriminate.
  - intros [? _]; discriminate.
  - intros [? _]; discriminate.
  - intros [? _]; discriminate.
  - intros [? _]; discriminate.
  - intros [? _]; discriminate.
Qed.

(** [read_data] hands back the two tables exactly when both files load;
    when the block file does not load, its error is the one raised, whatever
    the bundle file is; the bundle file's error is raised only when the
    block file has loaded. *)
Theorem read_data_all_or_nothing {Blocks Bundles}
    (blocks : File Blocks) (bundles : File Bundles) :
  (∀ blocks_df bundles_df,
     read_data blocks bundles = inr (blocks_df, bundles_df) ↔
     blocks = Parquet blocks_df ∧ bundles = Parquet bundles_df) ∧
  (∀ e, read_parquet blocks = inl e → read_data blocks bundles = inl e) ∧
  (∀ e, read_data blocks bundles = inl e →
     read_parquet blocks = inl e ∨
     ((∃ blocks_df, blocks = Parquet blocks_df) ∧ read_parquet bundles = inl e)).
Proof.
  split; [|split].
  - intros blocks_df bundles_df. apply read_data_inr.
  - intros e He. unfold read_data. by rewrite He.
  - intros e. unfold read_data.
    destruct blocks as [blocks_df| |]; simpl; [|(intros [= <-]; by left)..].
    intros He. right. split; [by exists blocks_df|].
    destruct bundles; simpl in *; congruence.
Qed.

(** ** More on the filter *)

Section filter_more.
Context {Other : Type}.
Implicit Types (r : Bundle.row Other) (df : DataFrame (Bundle.row Other)).

Lemma elem_of_filter_mev_types_types df r :
  r ∈ filter_mev_types df ↔
  r ∈ df ∧ Bundle.mev_type r ≠ Some "SearcherTx" ∧ Bundle.mev_type r ≠ Some "Unknown".
Proof. rewrite elem_of_filter_mev_types, kept_iff. tauto. Qed.

(** The filter drops the rows of the two excluded types and no other: a
    row is in the filtered table exactly when it is in the bundle table and
    its [mev_type] is neither ["SearcherTx"] nor ["Unknown"]. *)
Theorem filter_keeps_exactly_other_types df r :
  r ∈ filter_mev_types df ↔
  r ∈ df ∧ Bundle.mev_type r ≠ Some "SearcherTx" ∧ Bundle.mev_type r ≠ Some "Unknown".
Proof. apply elem_of_filter_mev_types_types. Qed.

(** The rows the filter removes are as many as the rows of an excluded
    type. *)
Theorem filter_row_count df :
  length (filter_mev_types df)
  + length (filter (λ r, Bundle.mev_type r ∈ excluded_mev_types) df)
  = length df.
Proof.
  unfold filter_mev_types, Polars.filter.
  induction df as [|r df IH]; [done|].
  rewrite !filter_cons.
  destruct (decide (Bundle.mev_type r ∈ excluded_mev_types)) as [Hin|Hnin].
  - rewrite decide_False; [simpl; lia|].
    unfold Polars.not_, Polars.is_in. by rewrite bool_decide_eq_true_2.
  - rewrite decide_True; [simpl; lia|].
    unfold Polars.not_, Polars.is_in. by rewrite bool_decide_eq_false_2.
Qed.

(** Filtering works row by row: the filtered concatenation of two tables is
    the concatenation of the filtered tables. *)
Theorem filter_mev_types_app df1 df2 :
  filter_mev_types (df1 ++ df2) = filter_mev_types df1 ++ filter_mev_types df2.
Proof. unfold filter_mev_types, Polars.filter. apply filter_app. Qed.
End filter_more.

(** ** More on the aggregator *)


Section aggregator_more.
Context {R : Type} `{SearcherColumns R}.
Implicit Types (df : DataFrame R) (out groups : DataFrame TopSearchers.row).

(** The result has one row per contract: no [mev_contract] occurs twice in
    it. *)
Theorem top_searchers_one_row_per_contract df out :
  get_top_searchers_by_pnl df out → NoDup (TopSearchers.mev_contract <$> out).
Proof. apply get_top_NoDup_keys. Qed.

(** Every contract of the result is a contract of the input, and with at
    most 30 distinct contracts every contract of the input is in the
    result. *)
Theorem top_searchers_contracts df out :
  get_top_searchers_by_pnl df out →
  (∀ k, k ∈ TopSearchers.mev_contract <$> out → k ∈ col_mev_contract <$> df) ∧
  (size (list_to_set (col_mev_contract <$> df) : gset Utf8) ≤ 30 →
   ∀ k, k ∈ col_mev_contract <$> df → k ∈ TopSearchers.mev_contract <$> out).
Proof.
  intros Hout. split.
  - intros k (row & -> & Hrow)%list_elem_of_fmap.
    by apply (get_top_elem_of df out row Hout), elem_of_group_sums in Hrow as [? _].
  - intros Hsize k Hk.
    rewrite (get_top_Permutation df out), group_sums_keys; [|by rewrite length_group_sums|done].
    by apply elem_of_unique.
Qed.



End aggregator_more.

(** ** Filter and aggregator together *)

(** In a run that prints, the filtered table is the filter of the bundle
    table, every printed contract has a bundle that is neither
    ["SearcherTx"] nor ["Unknown"], and its total is the sum over the
    bundles of that contract of such a type, and over no other bundle. *)
Theorem printed_totals_count_kept_bundles {Blocks Other} (blocks : File Blocks)
    (bundles_df : DataFrame (Bundle.row Other)) (printed : Printed Other)
    (row : TopSearchers.row) :
  main blocks (Parquet bundles_df) (inr printed) →
  row ∈ top_searchers_by_pnl printed →
  filtered_bundles_df printed = filter_mev_types bundles_df ∧
  (∃ r, r ∈ bundles_df ∧
        Bundle.mev_contract r = TopSearchers.mev_contract row ∧
        Bundle.mev_type r ≠ Some "SearcherTx" ∧ Bundle.mev_type r ≠ Some "Unknown") ∧
  TopSearchers.total_profit_usd row
  = Polars.sum (Bundle.profit_usd <$>
      filter (λ r, Bundle.mev_contract r = TopSearchers.mev_contract row ∧
                   Bundle.mev_type r ≠ Some "SearcherTx" ∧
                   Bundle.mev_type r ≠ Some "Unknown") bundles_df).
Proof.
  unfold main, read_data. destruct blocks as [blocks_df| |]; simpl; [|done..].
  intros (top & Htop & [= ->]) Hrow. simpl in *. split; [done|].
  apply (get_top_elem_of _ top row Htop), elem_of_group_sums in Hrow as [Hk Hsum].
  split.
  - apply list_elem_of_fmap in Hk as (r & Hkey & Hr).
    apply elem_of_filter_mev_types_types in Hr as (Hr & Hne1 & Hne2).
    exists r. by rewrite Hkey.
  - rewrite Hsum. unfold Polars.group, filter_mev_types, Polars.filter. simpl.
    rewrite list_filter_filter. f_equal. f_equal.
    apply list_filter_iff. intros r. by rewrite (kept_iff r).
Qed.

(** ** The further properties on concrete tables *)

Lemma top_searchers_one_row_per_contract_witness :
  NoDup (TopSearchers.mev_contract <$> [row_B; row_A]).
Proof.
  apply (top_searchers_one_row_per_contract (filter_mev_types example_bundles)).
  exists [row_A; row_B]. split.
  - unfold Polars.groupby_agg. vm_compute. reflexivity.
  - vm_compute. reflexivity.
Defined.

Lemma top_searchers_contracts_witness :
  (∀ k, k ∈ TopSearchers.mev_contract <$> [row_B; row_A] →
        k ∈ col_mev_contract <$> filter_mev_types example_bundles) ∧
  (size (list_to_set (col_mev_contract <$> filter_mev_types example_bundles) : gset Utf8)
   ≤ 30 →
   ∀ k, k ∈ col_mev_contract <$> filter_mev_types example_bundles →
        k ∈ TopSearchers.mev_contract <$> [row_B; row_A]).
Proof.
  apply (top_searchers_contracts (filter_mev_types example_bundles) [row_B; row_A]).
  exists [row_A; row_B]. split.
  - unfold Polars.groupby_agg. vm_compute. reflexivity.
  - vm_compute. reflexivity.
Defined.



Lemma printed_totals_count_kept_bundles_witness :
  TopSearchers.total_profit_usd row_A
  = Polars.sum (Bundle.profit_usd <$>
      filter (λ r, Bundle.mev_contract r = Some "A" ∧
                   Bundle.mev_type r ≠ Some "SearcherTx" ∧
                   Bundle.mev_type r ≠ Some "Unknown") example_bundles).
Proof.
  apply (printed_totals_count_kept_bundles (Parquet [1; 2; 3]) example_bundles
           (Output () (filter_mev_types example_bundles) [row_B; row_A]) row_A).
  - exists [row_B; row_A]. split; [|reflexivity].
    exists [row_A; row_B]. split.
    + unfold Polars.groupby_agg. vm_compute. reflexivity.
    + vm_compute. reflexivity.
  - apply list_elem_of_In. simpl. right. left. reflexivity.
Defined.

(** * Properties that depend on the stored numbers *)

(** ** The order of the descending sort on floats *)

Lemma f64_leb_key (x y : spec_float) :
  x ≠ S754_nan → y ≠ S754_nan →
  SFleb x y = true ↔ Float64.key_le (Float64.key x) (Float64.key y).
Proof.
  intros Hx Hy. unfold SFleb, SFcompare.
  destruct x as [sx|sx| |sx mx ex], y as [sy|sy| |sy my ey]; try done;
    try destruct sx; try destruct sy; simpl;
    try change (Pos.compare_cont Eq mx my) with (Pos.compare mx my);
    try destruct (Z.compare_spec ex ey);
    try destruct (Pos.compare_spec mx my);
    simpl; (split; [intros ?; first [done|lia] | intros ?; first [done|lia]]).
Qed.

Lemma f64_key_bound (x : spec_float) :
  x ≠ S754_nan → ∃ a b c, Float64.key x = (a, b, c) ∧ (a < 3)%Z.
Proof.
  intros Hx. destruct x as [s|s| |s m e]; try done; try destruct s; simpl;
    (do 3 eexists; split; [reflexivity|lia]).
Qed.

Lemma f64_ge_key (x y : spec_float) :
  Float64.ge x y ↔ Float64.key_le (Float64.key y) (Float64.key x).
Proof.
  destruct (decide (x = S754_nan)) as [->|Hx].
  - split; [intros _|done].
    destruct (decide (y = S754_nan)) as [->|Hy]; [simpl; lia|].
    destruct (f64_key_bound y Hy) as (a & b & c & -> & Ha). simpl. lia.
  - destruct (decide (y = S754_nan)) as [->|Hy].
    + destruct (f64_key_bound x Hx) as (a & b & c & Hk & Ha).
      rewrite Hk. simpl. split; [by destruct x|lia].
    + rewrite <-(f64_leb_key y x Hy Hx). by destruct x, y.
Qed.

Global Instance f64_ge_total : Total Float64.ge.
Proof.
  intros x y. rewrite !f64_ge_key.
  destruct (Float64.key x) as [[a1 b1] c1], (Float64.key y) as [[a2 b2] c2].
  simpl. lia.
Qed.

Global Instance f64_ge_trans : Transitive Float64.ge.
Proof.
  intros x y z. rewrite !f64_ge_key.
  destruct (Float64.key x) as [[a1 b1] c1], (Float64.key y) as [[a2 b2] c2],
    (Float64.key z) as [[a3 b3] c3].
  simpl. lia.
Qed.

Global Instance f64_ge_cell_total : Total Float64.ge_cell.
Proof.
  intros [x|] [y|]; simpl; auto. apply (total Float64.ge).
Qed.

Global Instance f64_ge_cell_trans : Transitive Float64.ge_cell.
Proof.
  intros [x|] [y|] [z|]; simpl; try done. apply (transitivity (R:=Float64.ge)).
Qed.

Global Instance f64_by_total_desc_total : Total Float64.by_total_desc.
Proof. intros a b. apply (total Float64.ge_cell). Qed.

Global Instance f64_by_total_desc_trans : Transitive Float64.by_total_desc.
Proof. intros a b c. apply (transitivity (R:=Float64.ge_cell)). Qed.

(** What [ge_cell] says, case by case. *)
Lemma f64_ge_cell_spec (a b : Float64.Number) :
  Float64.ge_cell a b ↔
  b = None ∨
  (a = Some S754_nan ∧ b ≠ None) ∨
  (∃ x y, a = Some x ∧ b = Some y ∧ x ≠ S754_nan ∧ y ≠ S754_nan ∧ SFleb y x = true).
Proof.
  destruct a as [x|], b as [y|]; simpl.
  - split.
    + intros Hge. right.
      destruct (decide (x = S754_nan)) as [->|Hx]; [by left|right].
      exists x, y. repeat split; try done; by destruct x, y.
    + intros [?|[[[= ->] _]|(x' & y' & [= <-] & [= <-] & Hx & Hy & Hle)]]; try done.
      by destruct x, y.
  - split; [by left|done].
  - split; [done|]. intros [?|[[? _]|(x' & y' & ? & _)]]; done.
  - split; [by left|done].
Qed.

Lemma f64_sort_reverse_Permutation (df : DataFrame Float64.TopSearchers.row) :
  Float64.sort_reverse df ≡ₚ df.
Proof. apply merge_sort_Permutation. Qed.

Lemma f64_sort_reverse_Sorted (df : DataFrame Float64.TopSearchers.row) :
  Sorted Float64.by_total_desc (Float64.sort_reverse df).
Proof. apply (Sorted_merge_sort _). Qed.

(** ** Groups and results *)

Section f64_aggregator.
Implicit Types (df : DataFrame Float64.Bundle.row)
  (out groups : DataFrame Float64.TopSearchers.row).

Lemma f64_get_top_first_seen df :
  Float64.get_top_searchers_by_pnl df (Float64.top_searchers_first_seen df).
Proof.
  exists (Float64.group_sums df). split; [|done]. by unfold Float64.groupby_agg.
Qed.



Lemma f64_elem_of_group_sums df row :
  row ∈ Float64.group_sums df ↔
  Float64.TopSearchers.mev_contract row ∈ (Float64.Bundle.mev_contract <$> df) ∧
  Float64.TopSearchers.total_profit_usd row
  = Float64.sum (Float64.Bundle.profit_usd
                   <$> Float64.group df (Float64.TopSearchers.mev_contract row)).
Proof.
  unfold Float64.group_sums. rewrite list_elem_of_fmap. split.
  - intros (k & -> & Hk). simpl. split; [|done].
    by apply (proj1 (elem_of_unique _ _)).
  - intros [Hk Hsum]. exists (Float64.TopSearchers.mev_contract row). split.
    + destruct row as [k t]. simpl in *. by rewrite Hsum.
    + by apply elem_of_unique.
Qed.


Lemma f64_get_top_elem_of df out row :
  Float64.get_top_searchers_by_pnl df out → row ∈ out → row ∈ Float64.group_sums df.
Proof.
  intros (groups & Hg & ->) Hrow. unfold Float64.groupby_agg in Hg.
  rewrite <-Hg, <-(f64_sort_reverse_Permutation groups).
  by apply (subseteq_take 30).
Qed.

Lemma f64_get_top_Sorted df out :
  Float64.get_top_searchers_by_pnl df out → Sorted Float64.by_total_desc out.
Proof. intros (groups & _ & ->). apply Sorted_take, f64_sort_reverse_Sorted. Qed.


(** C6, as the code has it: adjacent rows of the result are in the order
    of the descending sort.  Either the lower row's total is null, or the
    upper row's total is NaN, or both are numbers (infinities included) and
    the upper one is [>=] the lower one. *)
Theorem f64_top_searchers_sorted_desc df out (i : nat)
    (a b : Float64.TopSearchers.row) :
  Float64.get_top_searchers_by_pnl df out →
  out !! i = Some a → out !! S i = Some b →
  Float64.TopSearchers.total_profit_usd b = None ∨
  (Float64.TopSearchers.total_profit_usd a = Some S754_nan ∧
   Float64.TopSearchers.total_profit_usd b ≠ None) ∨
  (∃ x y, Float64.TopSearchers.total_profit_usd a = Some x ∧
          Float64.TopSearchers.total_profit_usd b = Some y ∧
          x ≠ S754_nan ∧ y ≠ S754_nan ∧ SFleb y x = true).
Proof.
  intros Hout Ha Hb. apply f64_ge_cell_spec.
  apply (Sorted_adjacent Float64.by_total_desc out i a b); eauto using f64_get_top_Sorted.
Qed.

(** [head(30)] keeps what the sort puts first: a contract of the input
    that is not in the result has a sum that the descending sort places at
    or after every total of the result; when both are numbers the total is
    [>=] the sum. *)
Theorem f64_top_searchers_are_the_largest df out row k :
  Float64.get_top_searchers_by_pnl df out →
  row ∈ out →
  k ∈ Float64.Bundle.mev_contract <$> df →
  k ∉ Float64.TopSearchers.mev_contract <$> out →
  let left_out := Float64.sum (Float64.Bundle.profit_usd <$> Float64.group df k) in
  Float64.ge_cell (Float64.TopSearchers.total_profit_usd row) left_out ∧
  (∀ x y, Float64.TopSearchers.total_profit_usd row = Some x → left_out = Some y →
          x ≠ S754_nan → y ≠ S754_nan → SFleb y x = true).
Proof.
  intros (groups & Hg & ->) Hrow Hk Hnot left_out. unfold Float64.groupby_agg in Hg.
  assert (Float64.ge_cell (Float64.TopSearchers.total_profit_usd row) left_out) as Hge.
  { set (g := Float64.TopSearchers.Row k left_out).
    assert (g ∈ Float64.sort_reverse groups) as Hin.
    { rewrite f64_sort_reverse_Permutation, Hg. by apply f64_elem_of_group_sums. }
    unfold Polars.head in *.
    rewrite <-(take_drop 30 (Float64.sort_reverse groups)) in Hin.
    apply elem_of_app in Hin as [Hin|Hin].
    { destruct Hnot.
      by apply (list_elem_of_fmap_2 Float64.TopSearchers.mev_contract) in Hin. }
    pose proof (Sorted_StronglySorted _ _ (f64_sort_reverse_Sorted groups)) as Hsorted.
    rewrite <-(take_drop 30 (Float64.sort_reverse groups)) in Hsorted.
    apply (StronglySorted_app_1_elem_of _ _ _ row g Hsorted Hrow Hin). }
  split; [done|]. intros x y Hx Hy Hxn Hyn. rewrite Hx, Hy in Hge. simpl in Hge.
  by destruct x, y.
Qed.
End f64_aggregator.

(** ** The Float64 properties on concrete tables *)

(** The example of the specification on a Float64 column, and the first
    row of a result with a NaN total. *)
Example f64_examples :
  Float64.top_searchers_first_seen
    [ Float64.Bundle.Row (Some "A") (Float64.number 10);
      Float64.Bundle.Row (Some "A") (Float64.number 5);
      Float64.Bundle.Row (Some "B") (Float64.number 100) ]
  = [ Float64.TopSearchers.Row (Some "B") (Float64.number 100);
      Float64.TopSearchers.Row (Some "A") (Float64.number 15) ] ∧
  Float64.top_searchers_first_seen Float64.nan_bundles
  = [ Float64.TopSearchers.Row (Some "A") Float64.nan;
      Float64.TopSearchers.Row (Some "B") (Float64.number 7);
      Float64.TopSearchers.Row (Some "C") (Float64.number 5) ].
Proof. split; vm_compute; reflexivity. Qed.


Lemma f64_top_searchers_sorted_desc_witness :
  Float64.number 5 = None ∨
  (Float64.number 7 = Some S754_nan ∧ Float64.number 5 ≠ None) ∨
  (∃ x y, Float64.number 7 = Some x ∧ Float64.number 5 = Some y ∧
          x ≠ S754_nan ∧ y ≠ S754_nan ∧ SFleb y x = true).
Proof.
  apply (f64_top_searchers_sorted_desc Float64.nan_bundles
           (Float64.top_searchers_first_seen Float64.nan_bundles) 1
           (Float64.TopSearchers.Row (Some "B") (Float64.number 7))
           (Float64.TopSearchers.Row (Some "C") (Float64.number 5))).
  - exists (Float64.group_sums Float64.nan_bundles). split.
    + unfold Float64.groupby_agg. reflexivity.
    + reflexivity.
  - vm_compute. reflexivity.
  - vm_compute. reflexivity.
Defined.

(** Of 31 contracts the one left out, with sum 0, is below the first row
    of the result. *)
Lemma f64_top_searchers_are_the_largest_witness :
  let left_out :=
    Float64.sum (Float64.Bundle.profit_usd
                   <$> Float64.group (Float64.one_bundle_each 31) (Some "A")) in
  Float64.ge_cell (Float64.number 30) left_out ∧
  (∀ x y, Float64.number 30 = Some x → left_out = Some y →
          x ≠ S754_nan → y ≠ S754_nan → SFleb y x = true).
Proof.
  apply (f64_top_searchers_are_the_largest (Float64.one_bundle_each 31)
           (Float64.top_searchers_first_seen (Float64.one_bundle_each 31))
           (Float64.TopSearchers.Row (Some "_") (Float64.number 30)) (Some "A")).
  - exists (Float64.group_sums (Float64.one_bundle_each 31)). split.
    + unfold Float64.groupby_agg. reflexivity.
    + reflexivity.
  - apply list_elem_of_In. vm_compute. left. reflexivity.
  - apply list_elem_of_In. vm_compute. left. reflexivity.
  - apply (bool_decide_unpack _). vm_compute. reflexivity.
Defined.

(** ** Where C4 and C6 as written fail *)


(** C6: a NaN total is sorted first, and NaN [>=] 7 does not hold. *)
Lemma f64_nan_total_counterexample :
  ¬ (∀ (df : DataFrame Float64.Bundle.row) (out : DataFrame Float64.TopSearchers.row)
       (i : nat) (a b : Float64.TopSearchers.row),
       Float64.get_top_searchers_by_pnl df out →
       out !! i = Some a → out !! S i = Some b →
       ∃ x y, Float64.TopSearchers.total_profit_usd a = Some x ∧
              Float64.TopSearchers.total_profit_usd b = Some y ∧
              SFleb y x = true).
Proof.
  intros Hclaim.
  destruct (Hclaim Float64.nan_bundles
              (Float64.top_searchers_first_seen Float64.nan_bundles) 0
              (Float64.TopSearchers.Row (Some "A") Float64.nan)
              (Float64.TopSearchers.Row (Some "B") (Float64.number 7)))
    as (x & y & [= <-] & [= <-] & Hle).
  - exists (Float64.group_sums Float64.nan_bundles). split.
    + unfold Float64.groupby_agg. reflexivity.
    + reflexivity.
  - vm_compute. reflexivity.
  - vm_compute. reflexivity.
  - vm_compute in Hle. discriminate Hle.
Qed.
